(** * VestingWithBoost: the vesting ledger of [main.py]

    A shallow embedding of the [VestingBoost] class and of the module
    global [BLOCK_TIMESTAMP], followed by the properties of the ledger.

    Numbers.  Python integers are [Z].  The attributes that the program
    turns into floats through true division ([speed], [boost_weight],
    and, after the first reconciliation, [remain_vest_token],
    [total_vested] and [claimable_vested_token]) are exact rationals [Q],
    the type the data model of the specification gives them; rounding of
    binary64 arithmetic is not part of this model.  Equality of
    rationals is [==] ([Qeq]).

    Effects.  A method is a function from the world (clock and object) to
    a result and a world.  A raised exception keeps every assignment made
    before it, as in Python: there is no rollback. *)

From Stdlib Require Import ZArith QArith Qminmax String List Bool Lia Lqa.
Import ListNotations.

Local Open Scope Z_scope.
Local Open Scope Q_scope.

(** ** Exceptions and results *)

Inductive exn : Type :=
| AssertionError (msg : string)
| ZeroDivisionError.

Inductive result (A : Type) : Type :=
| Ok (a : A)
| Raise (e : exn).

Arguments Ok {A} a.
Arguments Raise {A} e.

Definition is_ok {A : Type} (r : result A) : bool :=
  match r with Ok _ => true | Raise _ => false end.

(** ** The object and the world *)

Definition ONE_YEAR_IN_SECONDS : Z := (365 * 24 * 3600)%Z.

Record VestingBoost : Type := mkVestingBoost {
  remain_vest_token : Q;
  total_boost_token : Z;
  total_vested : Q;
  speed : Q;
  boost_weight : Q;
  total_duration_seconds : Z;
  last_update_time : Z;
  claimed_amount : Z;
  claimable_boost_token : Z;
  claimable_vested_token : Q
}.

(** [BLOCK_TIMESTAMP] is the module global; [self] is the one object. *)
Record world : Type := mkWorld {
  BLOCK_TIMESTAMP : Z;
  self : VestingBoost
}.

(** Attribute assignment, one setter per attribute. *)
Definition set_remain_vest_token (v : Q) (s : VestingBoost) : VestingBoost :=
  mkVestingBoost v (total_boost_token s) (total_vested s) (speed s)
    (boost_weight s) (total_duration_seconds s) (last_update_time s)
    (claimed_amount s) (claimable_boost_token s) (claimable_vested_token s).

Definition set_total_boost_token (v : Z) (s : VestingBoost) : VestingBoost :=
  mkVestingBoost (remain_vest_token s) v (total_vested s) (speed s)
    (boost_weight s) (total_duration_seconds s) (last_update_time s)
    (claimed_amount s) (claimable_boost_token s) (claimable_vested_token s).

Definition set_total_vested (v : Q) (s : VestingBoost) : VestingBoost :=
  mkVestingBoost (remain_vest_token s) (total_boost_token s) v (speed s)
    (boost_weight s) (total_duration_seconds s) (last_update_time s)
    (claimed_amount s) (claimable_boost_token s) (claimable_vested_token s).

Definition set_speed (v : Q) (s : VestingBoost) : VestingBoost :=
  mkVestingBoost (remain_vest_token s) (total_boost_token s) (total_vested s) v
    (boost_weight s) (total_duration_seconds s) (last_update_time s)
    (claimed_amount s) (claimable_boost_token s) (claimable_vested_token s).

Definition set_boost_weight (v : Q) (s : VestingBoost) : VestingBoost :=
  mkVestingBoost (remain_vest_token s) (total_boost_token s) (total_vested s)
    (speed s) v (total_duration_seconds s) (last_update_time s)
    (claimed_amount s) (claimable_boost_token s) (claimable_vested_token s).

Definition set_total_duration_seconds (v : Z) (s : VestingBoost) : VestingBoost :=
  mkVestingBoost (remain_vest_token s) (total_boost_token s) (total_vested s)
    (speed s) (boost_weight s) v (last_update_time s)
    (claimed_amount s) (claimable_boost_token s) (claimable_vested_token s).

Definition set_last_update_time (v : Z) (s : VestingBoost) : VestingBoost :=
  mkVestingBoost (remain_vest_token s) (total_boost_token s) (total_vested s)
    (speed s) (boost_weight s) (total_duration_seconds s) v
    (claimed_amount s) (claimable_boost_token s) (claimable_vested_token s).

Definition set_claimed_amount (v : Z) (s : VestingBoost) : VestingBoost :=
  mkVestingBoost (remain_vest_token s) (total_boost_token s) (total_vested s)
    (speed s) (boost_weight s) (total_duration_seconds s) (last_update_time s)
    v (claimable_boost_token s) (claimable_vested_token s).

Definition set_claimable_boost_token (v : Z) (s : VestingBoost) : VestingBoost :=
  mkVestingBoost (remain_vest_token s) (total_boost_token s) (total_vested s)
    (speed s) (boost_weight s) (total_duration_seconds s) (last_update_time s)
    (claimed_amount s) v (claimable_vested_token s).

Definition set_claimable_vested_token (v : Q) (s : VestingBoost) : VestingBoost :=
  mkVestingBoost (remain_vest_token s) (total_boost_token s) (total_vested s)
    (speed s) (boost_weight s) (total_duration_seconds s) (last_update_time s)
    (claimed_amount s) (claimable_boost_token s) v.

(** ** The method monad: state that survives an exception *)

Definition M (A : Type) : Type := world -> result A * world.

Definition ret {A : Type} (a : A) : M A := fun w => (Ok a, w).

Definition bind {A B : Type} (c : M A) (k : A -> M B) : M B :=
  fun w =>
    match c w with
    | (Ok a, w') => k a w'
    | (Raise e, w') => (Raise e, w')
    end.

Definition raise {A : Type} (e : exn) : M A := fun w => (Raise e, w).

Declare Scope py_scope.
Delimit Scope py_scope with py.
Notation "x <- c ;; k" := (bind c (fun x => k))
  (at level 61, c at next level, right associativity) : py_scope.
Notation "c ;; k" := (bind c (fun _ => k))
  (at level 61, right associativity) : py_scope.
Local Open Scope py_scope.

(** Reading an attribute of [self], assigning to [self], and the global. *)
Definition attr {A : Type} (f : VestingBoost -> A) : M A :=
  fun w => (Ok (f (self w)), w).

Definition assign (f : VestingBoost -> VestingBoost) : M unit :=
  fun w => (Ok tt, mkWorld (BLOCK_TIMESTAMP w) (f (self w))).

Definition global_BLOCK_TIMESTAMP : M Z :=
  fun w => (Ok (BLOCK_TIMESTAMP w), w).

Definition assign_BLOCK_TIMESTAMP (t : Z) : M unit :=
  fun w => (Ok tt, mkWorld t (self w)).

(** ** Python arithmetic on the numbers of the ledger *)

(** [a < b] as a test. *)
Definition Qltb (a b : Q) : bool := negb (Qle_bool b a).

(** [min(a, b)]: the first argument unless the second is smaller. *)
Definition pymin (a b : Q) : Q := if Qltb b a then b else a.

(** [a / b]: true division raises on a zero divisor. *)
Definition truediv (a b : Q) : M Q :=
  if Qeq_bool b 0 then raise ZeroDivisionError else ret (a / b).

(** [assert c, msg]. *)
Definition py_assert (c : bool) (msg : string) : M unit :=
  if c then ret tt else raise (AssertionError msg).

(** ** The methods of [VestingBoost] *)

Definition _update_vesting_speed : M unit :=
  r <- attr remain_vest_token ;;
  bw <- attr boost_weight ;;
  multiplier <- truediv (r + bw) r ;;
  r' <- attr remain_vest_token ;;
  d <- attr total_duration_seconds ;;
  base <- truediv r' (inject_Z d) ;;
  assign (set_speed (multiplier * base)).

Definition blank (initial_vesting : Z) (clock : Z) : VestingBoost :=
  {| remain_vest_token := inject_Z initial_vesting;
     total_boost_token := 0;
     total_vested := 0;
     speed := 0;
     boost_weight := 0;
     total_duration_seconds := ONE_YEAR_IN_SECONDS * 2;
     last_update_time := clock;
     claimed_amount := 0;
     claimable_boost_token := 0;
     claimable_vested_token := 0 |}.

(** The constructor, run when the global clock shows [clock]: the
    attributes are set, then the speed is computed; when that raises,
    no object is made. *)
Definition __init__ (initial_vesting : Z) (clock : Z) : result world :=
  match _update_vesting_speed (mkWorld clock (blank initial_vesting clock)) with
  | (Ok _, w) => Ok w
  | (Raise e, _) => Raise e
  end.

Definition _reset_state : M unit :=
  assign (fun s => set_claimable_boost_token
                     (claimable_boost_token s + total_boost_token s)%Z s) ;;
  assign (fun s => set_claimable_vested_token
                     (claimable_vested_token s
                      + (total_vested s - inject_Z (claimed_amount s))) s) ;;
  assign (set_remain_vest_token 0) ;;
  assign (set_total_boost_token 0) ;;
  assign (set_total_vested 0) ;;
  assign (set_speed 0) ;;
  assign (set_boost_weight 0) ;;
  assign (set_total_duration_seconds (ONE_YEAR_IN_SECONDS * 2)) ;;
  now <- global_BLOCK_TIMESTAMP ;;
  assign (set_last_update_time now) ;;
  assign (set_claimed_amount 0).

Definition cal_state_update : M (Q * Q) :=
  now <- global_BLOCK_TIMESTAMP ;;
  last <- attr last_update_time ;;
  let time_elapsed := (now - last)%Z in
  s <- attr speed ;;
  r <- attr remain_vest_token ;;
  let new_vested := pymin (s * inject_Z time_elapsed) r in
  tb <- attr total_boost_token ;;
  tv <- attr total_vested ;;
  fraction <- truediv (tv + new_vested) (r + tv) ;;
  let new_boost_weight := inject_Z tb * fraction in
  ret (new_vested, new_boost_weight).

Definition _update_state : M unit :=
  last <- attr last_update_time ;;
  now <- global_BLOCK_TIMESTAMP ;;
  if (last <? now)%Z then
    p <- cal_state_update ;;
    let new_vested := fst p in
    let new_boost_weight := snd p in
    assign (fun s => set_total_vested (total_vested s + new_vested) s) ;;
    assign (fun s => set_remain_vest_token (remain_vest_token s - new_vested) s) ;;
    assign (set_boost_weight new_boost_weight) ;;
    now' <- global_BLOCK_TIMESTAMP ;;
    assign (set_last_update_time now')
  else ret tt.

Definition boost (boost_amount : Z) : M unit :=
  r <- attr remain_vest_token ;;
  py_assert (Qltb 0 r) "No tokens to boost" ;;
  r' <- attr remain_vest_token ;;
  tv <- attr total_vested ;;
  tb <- attr total_boost_token ;;
  py_assert (Qle_bool (inject_Z (tb + boost_amount)) (r' + tv))
    "Boost amount cannot exceed the total vesting amount" ;;
  _update_state ;;
  assign (fun s => set_total_boost_token (total_boost_token s + boost_amount)%Z s) ;;
  assign (fun s => set_boost_weight (boost_weight s + inject_Z boost_amount) s) ;;
  _update_vesting_speed.

Definition add_vesting (additional_vesting : Z) : M unit :=
  _update_state ;;
  r <- attr remain_vest_token ;;
  (if Qeq_bool r 0 then _reset_state else ret tt) ;;
  assign (fun s => set_remain_vest_token
                     (remain_vest_token s + inject_Z additional_vesting) s) ;;
  _update_vesting_speed.

Definition adjust_time (additional_seconds : Z) : M unit :=
  now <- global_BLOCK_TIMESTAMP ;;
  assign_BLOCK_TIMESTAMP (now + additional_seconds)%Z.

(** The dictionary returned by [get_current_state], one field per key. *)
Record snapshot : Type := mkSnapshot {
  Remain_Vest : Q;
  Total_Boost_Token : Z;
  Weight : Q;
  Total_Vested : Q;
  Available_to_claim : Q;
  Speed_per_2_year : Q;
  Total_Unclaimed_TORCH : Q;
  Total_Withdrawable_Boost : Z
}.

Definition get_current_state : M snapshot :=
  let total_vested0 := 0 in
  remain_vest0 <- attr total_vested ;;
  boost_weight0 <- attr boost_weight ;;
  last <- attr last_update_time ;;
  now <- global_BLOCK_TIMESTAMP ;;
  locals <-
    (if (last <? now)%Z then
       p <- cal_state_update ;;
       ret (total_vested0 + fst p, remain_vest0 - fst p, snd p)
     else ret (total_vested0, remain_vest0, boost_weight0)) ;;
  let total_vested1 := fst (fst locals) in
  let remain_vest1 := snd (fst locals) in
  let boost_weight1 := snd locals in
  claimed <- attr claimed_amount ;;
  let available_to_claim := total_vested1 - inject_Z claimed in
  tb <- attr total_boost_token ;;
  s <- attr speed ;;
  cv <- attr claimable_vested_token ;;
  cb <- attr claimable_boost_token ;;
  ret {| Remain_Vest := remain_vest1;
         Total_Boost_Token := tb;
         Weight := boost_weight1;
         Total_Vested := total_vested1;
         Available_to_claim := available_to_claim;
         Speed_per_2_year := s * 2 * 365 * 24 * 3600;
         Total_Unclaimed_TORCH := cv;
         Total_Withdrawable_Boost := cb |}.

(** ** Sequences of operations *)

Inductive op : Type :=
| Boost (boost_amount : Z)
| AddVesting (additional_vesting : Z)
| AdvanceTime (additional_seconds : Z)
| GetState.

Definition run_op (o : op) : M unit :=
  match o with
  | Boost a => boost a
  | AddVesting a => add_vesting a
  | AdvanceTime n => adjust_time n
  | GetState => get_current_state ;; ret tt
  end.

(** The world an operation leaves behind, whether it returned or raised. *)
Definition after (o : op) (w : world) : world := snd (run_op o w).

Fixpoint run (ops : list op) (w : world) : world :=
  match ops with
  | [] => w
  | o :: rest => run rest (after o w)
  end.



(** Whether every call of a sequence returns. *)
Fixpoint all_return (ops : list op) (w : world) : bool :=
  match ops with
  | [] => true
  | o :: rest => is_ok (fst (run_op o w)) && all_return rest (after o w)
  end.

(** The preconditions the specification states on arguments: deposits
    and time advances are not negative. *)
Definition precondition (o : op) : Prop :=
  match o with
  | AddVesting a => (0 <= a)%Z
  | AdvanceTime n => (0 <= n)%Z
  | Boost _ | GetState => True
  end.


(** States reached from a constructor call with a positive amount by
    operations that satisfy [P]; an operation that raises still leaves a
    state, which is reached too. *)
Inductive reachable_by (P : op -> Prop) : world -> Prop :=
| reach_init (initial_vesting clock : Z) (w : world) :
    (0 < initial_vesting)%Z ->
    __init__ initial_vesting clock = Ok w ->
    reachable_by P w
| reach_step (o : op) (w : world) :
    reachable_by P w -> P o -> reachable_by P (after o w).

Definition reachable : world -> Prop := reachable_by precondition.


(** ** The states inside a method *)

(** The amount one reconciliation accrues and the weight it computes,
    as [cal_state_update] returns them when it does not raise. *)
Definition elapsed (w : world) : Z :=
  (BLOCK_TIMESTAMP w - last_update_time (self w))%Z.

Definition accrued (w : world) : Q :=
  pymin (speed (self w) * inject_Z (elapsed w)) (remain_vest_token (self w)).

Definition reconciled_weight (w : world) : Q :=
  inject_Z (total_boost_token (self w))
  * ((total_vested (self w) + accrued w)
     / (remain_vest_token (self w) + total_vested (self w))).

(** The object after the four assignments of [_update_state]. *)
Definition reconciled (w : world) : VestingBoost :=
  set_last_update_time (BLOCK_TIMESTAMP w)
    (set_boost_weight (reconciled_weight w)
       (set_remain_vest_token (remain_vest_token (self w) - accrued w)
          (set_total_vested (total_vested (self w) + accrued w) (self w)))).

(** The messages of the two assertions of [boost]. *)
Definition no_tokens : string := "No tokens to boost".
Definition over_cap : string :=
  "Boost amount cannot exceed the total vesting amount".

(** The object after the assignments of [_reset_state]. *)
Definition flushed (w : world) : VestingBoost :=
  {| remain_vest_token := 0;
     total_boost_token := 0;
     total_vested := 0;
     speed := 0;
     boost_weight := 0;
     total_duration_seconds := ONE_YEAR_IN_SECONDS * 2;
     last_update_time := BLOCK_TIMESTAMP w;
     claimed_amount := 0;
     claimable_boost_token :=
       (claimable_boost_token (self w) + total_boost_token (self w))%Z;
     claimable_vested_token :=
       claimable_vested_token (self w)
       + (total_vested (self w) - inject_Z (claimed_amount (self w))) |}.

(** The world in which [add_vesting] recomputes the speed, entered from
    the world [w1] that reconciliation left. *)
Definition deposit_world (a : Z) (w1 : world) : world :=
  let w2 := if Qeq_bool (remain_vest_token (self w1)) 0
            then mkWorld (BLOCK_TIMESTAMP w1) (flushed w1) else w1 in
  mkWorld (BLOCK_TIMESTAMP w2)
    (set_remain_vest_token
       (remain_vest_token (self w2) + inject_Z a) (self w2)).

(** The world in which [boost] recomputes the speed. *)
Definition boosted_world (a : Z) (w1 : world) : world :=
  mkWorld (BLOCK_TIMESTAMP w1)
    (set_boost_weight (boost_weight (self w1) + inject_Z a)
       (set_total_boost_token (total_boost_token (self w1) + a)%Z (self w1))).

(** ** Invariants of the ledger *)




(** ** The ledgers of the driver *)

(** The world the constructor makes from a nonzero amount. *)
Definition constructed (initial_vesting clock : Z) : world :=
  mkWorld clock
    (set_speed
       ((inject_Z initial_vesting + 0) / inject_Z initial_vesting
        * (inject_Z initial_vesting / inject_Z (ONE_YEAR_IN_SECONDS * 2)))
       (blank initial_vesting clock)).

(** The calls of the driver at the end of [main.py], after the
    constructor call [VestingBoost(initial_vesting=100)]. *)
Definition driver : list op :=
  [ Boost 100; GetState;
    AdvanceTime 15768000; AddVesting 200; GetState;
    AdvanceTime 31536000; GetState;
    AdvanceTime 31536000; GetState;
    AddVesting 100; Boost 100; GetState ].


(** The ledger of the driver's constructor call, two nominal durations
    later: the whole epoch has elapsed and nothing has reconciled yet. *)
Definition fully_elapsed : world :=
  run [AdvanceTime 126144000] (constructed 100 0).




(** The driver's ledger before its third query: 50 tokens vested and 250
    remaining when last reconciled, and one more year on the clock. *)
Definition before_third_query : world :=
  run [Boost 100; GetState; AdvanceTime 15768000; AddVesting 200; GetState;
       AdvanceTime 31536000] (constructed 100 0).

(** ** Further notions *)


(** The clock has not gone back behind the last reconciliation. *)
Definition clock_ahead (w : world) : Prop :=
  (last_update_time (self w) <= BLOCK_TIMESTAMP w)%Z.

(** The amounts of the [boost] calls of a sequence, added up. *)
Fixpoint boosts (ops : list op) : Z :=
  match ops with
  | [] => 0%Z
  | Boost a :: rest => (a + boosts rest)%Z
  | _ :: rest => boosts rest
  end.




(** * Properties *)

(** Reduce the attribute reads of a world built by the assignments. *)
Ltac attributes :=
  cbn [self BLOCK_TIMESTAMP reconciled
       set_remain_vest_token set_total_boost_token set_total_vested set_speed
       set_boost_weight set_total_duration_seconds set_last_update_time
       set_claimed_amount set_claimable_boost_token set_claimable_vested_token
       remain_vest_token total_boost_token total_vested speed boost_weight
       total_duration_seconds last_update_time claimed_amount
       claimable_boost_token claimable_vested_token] in *.

(** ** Arithmetic of the tests *)



Lemma Qeq_bool_false (a b : Q) : Qeq_bool a b = false <-> ~ a == b.
Proof.
  rewrite <- not_true_iff_false, Qeq_bool_iff. reflexivity.
Qed.







Lemma inject_Z_eq0 (z : Z) : inject_Z z == 0 <-> z = 0%Z.
Proof. change 0 with (inject_Z 0). rewrite inject_Z_injective. reflexivity. Qed.

(** ** What each method does, case by case *)

Lemma truediv_ok (a b : Q) (w : world) :
  ~ b == 0 -> truediv a b w = (Ok (a / b), w).
Proof.
  intros H. unfold truediv. apply Qeq_bool_false in H. rewrite H. reflexivity.
Qed.

Lemma truediv_raise (a b : Q) (w : world) :
  b == 0 -> truediv a b w = (Raise ZeroDivisionError, w).
Proof.
  intros H. unfold truediv. apply Qeq_bool_iff in H. rewrite H. reflexivity.
Qed.

Lemma update_vesting_speed_ok (w : world) :
  ~ remain_vest_token (self w) == 0 ->
  total_duration_seconds (self w) <> 0%Z ->
  _update_vesting_speed w =
  (Ok tt,
   mkWorld (BLOCK_TIMESTAMP w)
     (set_speed
        ((remain_vest_token (self w) + boost_weight (self w))
         / remain_vest_token (self w)
         * (remain_vest_token (self w)
            / inject_Z (total_duration_seconds (self w))))
        (self w))).
Proof.
  intros Hr Hd. unfold _update_vesting_speed, bind, attr.
  rewrite (truediv_ok _ _ w Hr).
  rewrite truediv_ok by (rewrite inject_Z_eq0; exact Hd).
  reflexivity.
Qed.

Lemma update_vesting_speed_raise (w : world) :
  remain_vest_token (self w) == 0 \/ total_duration_seconds (self w) = 0%Z ->
  _update_vesting_speed w = (Raise ZeroDivisionError, w).
Proof.
  intros H. unfold _update_vesting_speed, bind, attr.
  destruct (Qeq_bool (remain_vest_token (self w)) 0) eqn:E.
  - apply Qeq_bool_iff in E. rewrite (truediv_raise _ _ w E). reflexivity.
  - apply Qeq_bool_false in E. rewrite (truediv_ok _ _ w E).
    destruct H as [H | H]; [contradiction |].
    rewrite truediv_raise by (rewrite inject_Z_eq0; exact H). reflexivity.
Qed.

Lemma cal_state_update_ok (w : world) :
  ~ remain_vest_token (self w) + total_vested (self w) == 0 ->
  cal_state_update w = (Ok (accrued w, reconciled_weight w), w).
Proof.
  intros H. unfold cal_state_update, bind, attr, global_BLOCK_TIMESTAMP.
  unfold accrued, elapsed in *.
  rewrite (truediv_ok _ _ w H). reflexivity.
Qed.

Lemma cal_state_update_raise (w : world) :
  remain_vest_token (self w) + total_vested (self w) == 0 ->
  cal_state_update w = (Raise ZeroDivisionError, w).
Proof.
  intros H. unfold cal_state_update, bind, attr, global_BLOCK_TIMESTAMP.
  rewrite (truediv_raise _ _ w H). reflexivity.
Qed.

Lemma update_state_idle (w : world) :
  (BLOCK_TIMESTAMP w <= last_update_time (self w))%Z ->
  _update_state w = (Ok tt, w).
Proof.
  intros H. unfold _update_state, bind, attr, global_BLOCK_TIMESTAMP.
  apply Z.ltb_ge in H. rewrite H. reflexivity.
Qed.

Lemma update_state_ok (w : world) :
  (last_update_time (self w) < BLOCK_TIMESTAMP w)%Z ->
  ~ remain_vest_token (self w) + total_vested (self w) == 0 ->
  _update_state w = (Ok tt, mkWorld (BLOCK_TIMESTAMP w) (reconciled w)).
Proof.
  intros Ht H. unfold _update_state, bind at 1 2, attr at 1, global_BLOCK_TIMESTAMP at 1.
  apply Z.ltb_lt in Ht. rewrite Ht.
  unfold bind at 1. rewrite (cal_state_update_ok w H). reflexivity.
Qed.

Lemma update_state_raise (w : world) :
  (last_update_time (self w) < BLOCK_TIMESTAMP w)%Z ->
  remain_vest_token (self w) + total_vested (self w) == 0 ->
  _update_state w = (Raise ZeroDivisionError, w).
Proof.
  intros Ht H. unfold _update_state, bind at 1 2, attr at 1, global_BLOCK_TIMESTAMP at 1.
  apply Z.ltb_lt in Ht. rewrite Ht.
  unfold bind at 1. rewrite (cal_state_update_raise w H). reflexivity.
Qed.

(** [_update_state] falls into one of three cases. *)
Lemma update_state_cases (w : world) :
  _update_state w = (Ok tt, w)
  \/ ((last_update_time (self w) < BLOCK_TIMESTAMP w)%Z
      /\ ~ remain_vest_token (self w) + total_vested (self w) == 0
      /\ _update_state w = (Ok tt, mkWorld (BLOCK_TIMESTAMP w) (reconciled w)))
  \/ ((last_update_time (self w) < BLOCK_TIMESTAMP w)%Z
      /\ remain_vest_token (self w) + total_vested (self w) == 0
      /\ _update_state w = (Raise ZeroDivisionError, w)).
Proof.
  destruct (Z_lt_le_dec (last_update_time (self w)) (BLOCK_TIMESTAMP w)) as [Ht | Ht].
  - destruct (Qeq_dec (remain_vest_token (self w) + total_vested (self w)) 0) as [E | E].
    + right; right. auto using update_state_raise.
    + right; left. auto using update_state_ok.
  - left. apply update_state_idle. exact Ht.
Qed.

Lemma reset_state_eq (w : world) :
  _reset_state w = (Ok tt, mkWorld (BLOCK_TIMESTAMP w) (flushed w)).
Proof. reflexivity. Qed.

Lemma add_vesting_eq (a : Z) (w : world) :
  add_vesting a w =
  match _update_state w with
  | (Ok _, w1) => _update_vesting_speed (deposit_world a w1)
  | (Raise e, w1) => (Raise e, w1)
  end.
Proof.
  unfold add_vesting, bind at 1. destruct (_update_state w) as [[[] | e] w1].
  - unfold bind at 1 2, attr at 1, deposit_world.
    destruct (Qeq_bool (remain_vest_token (self w1)) 0); reflexivity.
  - reflexivity.
Qed.

Lemma boost_eq (a : Z) (w : world) :
  boost a w =
  if negb (Qltb 0 (remain_vest_token (self w)))
  then (Raise (AssertionError no_tokens), w)
  else if negb (Qle_bool (inject_Z (total_boost_token (self w) + a))
                  (remain_vest_token (self w) + total_vested (self w)))
  then (Raise (AssertionError over_cap), w)
  else match _update_state w with
       | (Ok _, w1) => _update_vesting_speed (boosted_world a w1)
       | (Raise e, w1) => (Raise e, w1)
       end.
Proof.
  unfold boost, bind at 1 2, attr at 1, py_assert.
  destruct (Qltb 0 (remain_vest_token (self w))); [| reflexivity].
  cbn [negb ret]. unfold bind at 1 2 3 4, attr at 1 2 3.
  destruct (Qle_bool _ _); [| reflexivity].
  cbn [negb ret]. unfold bind at 1.
  destruct (_update_state w) as [[[] | e] w1]; reflexivity.
Qed.

Lemma adjust_time_eq (n : Z) (w : world) :
  adjust_time n w = (Ok tt, mkWorld (BLOCK_TIMESTAMP w + n) (self w)).
Proof. reflexivity. Qed.

Lemma get_current_state_pure (w : world) : snd (get_current_state w) = w.
Proof.
  unfold get_current_state, bind at 1 2 3 4 5, attr at 1 2 3,
    global_BLOCK_TIMESTAMP at 1.
  destruct (last_update_time (self w) <? BLOCK_TIMESTAMP w)%Z.
  - unfold bind at 1.
    destruct (Qeq_dec (remain_vest_token (self w) + total_vested (self w)) 0)
      as [E | E].
    + rewrite (cal_state_update_raise w E). reflexivity.
    + rewrite (cal_state_update_ok w E). reflexivity.
  - reflexivity.
Qed.

(** ** Invariants of the ledger *)








Lemma update_vesting_speed_frame (w : world) :
  snd (_update_vesting_speed w) = w
  \/ (~ remain_vest_token (self w) == 0
      /\ total_duration_seconds (self w) <> 0%Z
      /\ _update_vesting_speed w =
         (Ok tt,
          mkWorld (BLOCK_TIMESTAMP w)
            (set_speed
               ((remain_vest_token (self w) + boost_weight (self w))
                / remain_vest_token (self w)
                * (remain_vest_token (self w)
                   / inject_Z (total_duration_seconds (self w))))
               (self w)))).
Proof.
  destruct (Qeq_dec (remain_vest_token (self w)) 0) as [E | E].
  - left. rewrite update_vesting_speed_raise by (left; exact E). reflexivity.
  - destruct (Z.eq_dec (total_duration_seconds (self w)) 0) as [D | D].
    + left. rewrite update_vesting_speed_raise by (right; exact D). reflexivity.
    + right. auto using update_vesting_speed_ok.
Qed.





Lemma init_ok (initial_vesting clock : Z) :
  initial_vesting <> 0%Z ->
  __init__ initial_vesting clock = Ok (constructed initial_vesting clock).
Proof.
  intros H. unfold __init__, constructed.
  rewrite update_vesting_speed_ok; cbn [self blank remain_vest_token
    total_duration_seconds BLOCK_TIMESTAMP boost_weight].
  - reflexivity.
  - rewrite inject_Z_eq0. exact H.
  - discriminate.
Qed.



Lemma driver_precondition : Forall precondition driver.
Proof. repeat constructor; cbn; lia. Qed.


Lemma reachable_run (P : op -> Prop) (ops : list op) (w : world) :
  reachable_by P w -> Forall P ops -> reachable_by P (run ops w).
Proof.
  revert w. induction ops as [| o rest IH]; intros w Hw Hp.
  - exact Hw.
  - inversion Hp; subst. cbn [run]. apply IH; [| assumption].
    apply reach_step; assumption.
Qed.

(** ** Conservation *)



(** ** The accrual of one reconciliation *)




(** ** The constructor *)


(** ** Signs *)




















Lemma fully_elapsed_reachable (P : op -> Prop) :
  (forall n, (0 <= n)%Z -> P (AdvanceTime n)) ->
  reachable_by P fully_elapsed.
Proof.
  intros HP. apply reachable_run.
  - apply (reach_init _ 100 0); [lia | reflexivity].
  - repeat constructor. apply HP. lia.
Qed.

(** ** The speed *)




(** ** Failures *)

Lemma update_vesting_speed_result (w : world) :
  fst (_update_vesting_speed w) = Ok tt
  \/ fst (_update_vesting_speed w) = Raise ZeroDivisionError.
Proof.
  destruct (Qeq_dec (remain_vest_token (self w)) 0) as [E | E].
  - right. rewrite update_vesting_speed_raise by (left; exact E). reflexivity.
  - destruct (Z.eq_dec (total_duration_seconds (self w)) 0) as [D | D].
    + right. rewrite update_vesting_speed_raise by (right; exact D). reflexivity.
    + left. rewrite update_vesting_speed_ok by assumption. reflexivity.
Qed.

Lemma update_state_result (w : world) :
  fst (_update_state w) = Ok tt
  \/ _update_state w = (Raise ZeroDivisionError, w).
Proof.
  destruct (update_state_cases w) as [E | [(_ & _ & E) | (_ & _ & E)]];
    rewrite E; auto.
Qed.

Lemma boost_assertion_only_first (a : Z) (w w' : world) (msg : string) :
  boost a w = (Raise (AssertionError msg), w') -> w' = w.
Proof.
  rewrite boost_eq.
  destruct (negb _); [intros [= _ <-]; reflexivity |].
  destruct (negb _); [intros [= _ <-]; reflexivity |].
  destruct (update_state_result w) as [E | E].
  - destruct (_update_state w) as [[[] | e] w1]; cbn [fst] in E;
      [| discriminate].
    destruct (update_vesting_speed_result (boosted_world a w1)) as [F | F];
      destruct (_update_vesting_speed (boosted_world a w1)) as [r w2];
      cbn [fst] in F; subst r; discriminate.
  - rewrite E. discriminate.
Qed.

Lemma add_vesting_no_assertion (a : Z) (w : world) (msg : string) :
  fst (add_vesting a w) <> Raise (AssertionError msg).
Proof.
  rewrite add_vesting_eq.
  destruct (update_state_result w) as [E | E].
  - destruct (_update_state w) as [[[] | e] w1]; cbn [fst] in E;
      [| discriminate].
    destruct (update_vesting_speed_result (deposit_world a w1)) as [F | F];
      rewrite F; discriminate.
  - rewrite E. discriminate.
Qed.

(** C4, as stated, fails.  On the ledger whose epoch has fully elapsed,
    [boost(50)] passes both assertions, reconciles, adds the boost and
    then raises [ZeroDivisionError] in the speed recomputation, reached
    with [remain_vest_token == 0] outside any reset; the assignments made
    before stay: [remain_vest_token] went from 100 to 0, [total_vested]
    from 0 to 100, [total_boost_token] from 0 to 50 and
    [last_update_time] from 0 to the clock.  On the same ledger
    [add_vesting(0)] reconciles, resets the epoch and raises
    [ZeroDivisionError] too, the 100 tokens moved to
    [claimable_vested_token]. *)
Lemma failure_after_mutation :
  reachable fully_elapsed
  /\ remain_vest_token (self fully_elapsed) == 100
  /\ fst (boost 50 fully_elapsed) = Raise ZeroDivisionError
  /\ fst (_update_vesting_speed
            (boosted_world 50 (snd (_update_state fully_elapsed))))
     = Raise ZeroDivisionError
  /\ remain_vest_token (self (snd (boost 50 fully_elapsed))) == 0
  /\ total_vested (self (snd (boost 50 fully_elapsed))) == 100
  /\ total_boost_token (self (snd (boost 50 fully_elapsed))) = 50%Z
  /\ last_update_time (self (snd (boost 50 fully_elapsed))) = 126144000%Z
  /\ snd (boost 50 fully_elapsed) <> fully_elapsed
  /\ fst (add_vesting 0 fully_elapsed) = Raise ZeroDivisionError
  /\ remain_vest_token (self (snd (add_vesting 0 fully_elapsed))) == 0
  /\ claimable_vested_token (self fully_elapsed) == 0
  /\ claimable_vested_token (self (snd (add_vesting 0 fully_elapsed))) == 100
  /\ snd (add_vesting 0 fully_elapsed) <> fully_elapsed.
Proof.
  split; [apply fully_elapsed_reachable; intros n Hn; exact Hn |].
  repeat (split; [vm_compute; reflexivity |]).
  split.
  { intros E. apply (f_equal (fun w => total_boost_token (self w))) in E.
    vm_compute in E. discriminate. }
  repeat (split; [vm_compute; reflexivity |]).
  intros E. apply (f_equal (fun w => last_update_time (self w))) in E.
  vm_compute in E. discriminate.
Qed.

(** C4, amended.  When [boost] fails one of its two assertions, every
    attribute of the ledger and the clock are as before the call: both
    assertions come before the first assignment.  [add_vesting] raises no
    assertion error and [adjust_time] never raises.  (The only other
    failure is [ZeroDivisionError], and the program has no rollback.) *)
Theorem failed_assertion_keeps_state :
  (forall (a : Z) (w w' : world) (msg : string),
      boost a w = (Raise (AssertionError msg), w') -> w' = w)
  /\ (forall (a : Z) (w : world) (msg : string),
         fst (add_vesting a w) <> Raise (AssertionError msg))
  /\ (forall (n : Z) (w : world), fst (adjust_time n w) = Ok tt).
Proof.
  split; [exact boost_assertion_only_first |].
  split; [exact add_vesting_no_assertion | reflexivity].
Qed.

Lemma failed_assertion_keeps_state_witness :
  boost 200 (constructed 100 0)
  = (Raise (AssertionError over_cap), snd (boost 200 (constructed 100 0)))
  /\ snd (boost 200 (constructed 100 0)) = constructed 100 0.
Proof.
  assert (E : boost 200 (constructed 100 0)
              = (Raise (AssertionError over_cap),
                 snd (boost 200 (constructed 100 0))))
    by reflexivity.
  split; [exact E |].
  destruct failed_assertion_keeps_state as (Hboost & _ & _).
  exact (Hboost 200%Z (constructed 100 0) _ over_cap E).
Defined.

(** ** [boost] *)




(** ** [adjust_time] *)

(** C6, as stated, fails.  [adjust_time(-5)] on the fresh ledger of the
    driver returns, and the clock goes back from 0 to -5: nothing rejects
    a negative argument. *)
Lemma adjust_time_negative_returns :
  fst (adjust_time (-5) (constructed 100 0)) = Ok tt
  /\ BLOCK_TIMESTAMP (constructed 100 0) = 0%Z
  /\ BLOCK_TIMESTAMP (snd (adjust_time (-5) (constructed 100 0))) = (-5)%Z.
Proof. repeat split. Qed.

(** C6, amended.  For every ledger state and every argument, negative or
    not, [adjust_time(seconds)] returns, adds [seconds] to the shared
    clock and changes no attribute of the ledger. *)
Theorem adjust_time_any_argument (n : Z) (w : world) :
  fst (adjust_time n w) = Ok tt
  /\ BLOCK_TIMESTAMP (snd (adjust_time n w)) = (BLOCK_TIMESTAMP w + n)%Z
  /\ self (snd (adjust_time n w)) = self w.
Proof. repeat split. Qed.

(** ** [add_vesting] *)




(** ** The boost weight *)




(** ** The snapshot *)

(** C1.  What [get_current_state] returns is not the reconciled state.
    On the fresh ledger of the driver, with 100 tokens remaining and no
    time elapsed, "Remain Vest" is 0.  Before the third query of the
    driver, where the reconciliation accrues 150 and would leave 100
    remaining and 200 vested, "Remain Vest" is -100 and "Total Vested"
    is 150: the query starts from [self.total_vested] and from 0 where
    [_update_state] starts from [self.remain_vest_token] and from
    [self.total_vested].  "Available to claim" is the snapshot's
    "Total Vested" less [claimed_amount], and the speed entry is
    [speed * total_duration_seconds]. *)
Theorem snapshot_not_reconciled :
  (exists snap : snapshot,
      get_current_state (constructed 100 0) = (Ok snap, constructed 100 0)
      /\ remain_vest_token (self (constructed 100 0)) == 100
      /\ (BLOCK_TIMESTAMP (constructed 100 0)
          = last_update_time (self (constructed 100 0)))
      /\ Remain_Vest snap == 0
      /\ Total_Vested snap == 0)
  /\ (exists snap : snapshot,
         get_current_state before_third_query = (Ok snap, before_third_query)
         /\ accrued before_third_query == 150
         /\ remain_vest_token (reconciled before_third_query) == 100
         /\ total_vested (reconciled before_third_query) == 200
         /\ Remain_Vest snap == -100
         /\ Total_Vested snap == 150
         /\ Available_to_claim snap
            == Total_Vested snap
               - inject_Z (claimed_amount (self before_third_query))
         /\ Speed_per_2_year snap
            == speed (self before_third_query)
               * inject_Z (total_duration_seconds (self before_third_query))).
Proof.
  split.
  - eexists. split; [vm_compute; reflexivity |]. repeat split.
  - eexists. split; [vm_compute; reflexivity |].
    repeat (split; [vm_compute; reflexivity |]). vm_compute. reflexivity.
Qed.

(** * Further properties of the methods *)

(** Reduce the attribute reads of the worlds inside the methods. *)
Ltac inside :=
  cbn [self BLOCK_TIMESTAMP reconciled flushed boosted_world constructed blank
       set_remain_vest_token set_total_boost_token set_total_vested set_speed
       set_boost_weight set_total_duration_seconds set_last_update_time
       set_claimed_amount set_claimable_boost_token set_claimable_vested_token
       remain_vest_token total_boost_token total_vested speed boost_weight
       total_duration_seconds last_update_time claimed_amount
       claimable_boost_token claimable_vested_token] in *.

(** ** Invariants kept by every operation *)

Section Preservation.

Variable P : op -> Prop.
Variable I : world -> Prop.

(** [I] does not look at the speed. *)
Hypothesis I_speed : forall (w : world) (v : Q),
    I w -> I (mkWorld (BLOCK_TIMESTAMP w) (set_speed v (self w))).

Hypothesis I_reconciled : forall w : world,
    I w ->
    (last_update_time (self w) < BLOCK_TIMESTAMP w)%Z ->
    ~ remain_vest_token (self w) + total_vested (self w) == 0 ->
    I (mkWorld (BLOCK_TIMESTAMP w) (reconciled w)).

(** The boost is added where the cap held before the reconciliation,
    and so holds after it. *)
Hypothesis I_boosted : forall (a : Z) (w1 : world),
    P (Boost a) -> I w1 ->
    inject_Z (total_boost_token (self w1) + a)
    <= remain_vest_token (self w1) + total_vested (self w1) ->
    I (boosted_world a w1).

Hypothesis I_deposit : forall (a : Z) (w1 : world),
    P (AddVesting a) -> I w1 -> I (deposit_world a w1).

Hypothesis I_advance : forall (n : Z) (w : world),
    P (AdvanceTime n) -> I w ->
    I (mkWorld (BLOCK_TIMESTAMP w + n) (self w)).

Lemma preserved_update_state (w : world) :
  I w -> I (snd (_update_state w)).
Proof.
  intros Hw.
  destruct (update_state_cases w) as [E | [(Ht & Hne & E) | (_ & _ & E)]];
    rewrite E; cbn [snd]; auto.
Qed.

Lemma preserved_update_vesting_speed (w : world) :
  I w -> I (snd (_update_vesting_speed w)).
Proof.
  intros Hw.
  destruct (update_vesting_speed_frame w) as [E | (_ & _ & E)];
    rewrite E; cbn [snd]; auto.
Qed.

Lemma update_state_keeps_cap (a : Z) (w : world) :
  inject_Z (total_boost_token (self w) + a)
  <= remain_vest_token (self w) + total_vested (self w) ->
  inject_Z (total_boost_token (self (snd (_update_state w))) + a)
  <= remain_vest_token (self (snd (_update_state w)))
     + total_vested (self (snd (_update_state w))).
Proof.
  intros H.
  destruct (update_state_cases w) as [E | [(_ & _ & E) | (_ & _ & E)]];
    rewrite E; cbn [snd]; try exact H.
  attributes. lra.
Qed.

Lemma preserved_after (o : op) (w : world) : P o -> I w -> I (after o w).
Proof.
  intros Hp Hw. destruct o as [a | a | n |]; unfold after, run_op.
  - rewrite boost_eq.
    destruct (negb _); [exact Hw |].
    destruct (negb (Qle_bool _ _)) eqn:B; [exact Hw |].
    apply negb_false_iff, Qle_bool_iff in B.
    pose proof (preserved_update_state w Hw) as H1.
    pose proof (update_state_keeps_cap a w B) as H2.
    destruct (_update_state w) as [[[] | e] w1]; cbn [snd] in *;
      [| exact H1].
    apply preserved_update_vesting_speed. apply I_boosted; assumption.
  - rewrite add_vesting_eq.
    pose proof (preserved_update_state w Hw) as H1.
    destruct (_update_state w) as [[[] | e] w1]; cbn [snd] in *;
      [| exact H1].
    apply preserved_update_vesting_speed. apply I_deposit; assumption.
  - rewrite adjust_time_eq. cbn [snd]. apply I_advance; assumption.
  - unfold bind. pose proof (get_current_state_pure w) as E.
    destruct (get_current_state w) as [[x | e] w']; cbn [snd] in E; subst w';
      exact Hw.
Qed.

Hypothesis I_init : forall (initial_vesting clock : Z),
    (0 < initial_vesting)%Z -> I (constructed initial_vesting clock).

Lemma preserved_reachable (w : world) : reachable_by P w -> I w.
Proof.
  induction 1 as [z c w Hz E | o w _ IH Hp].
  - rewrite init_ok in E by lia. injection E as <-. apply I_init, Hz.
  - apply preserved_after; assumption.
Qed.

End Preservation.

Lemma driver_reachable (P : op -> Prop) :
  Forall P driver -> reachable_by P (run driver (constructed 100 0)).
Proof.
  intros H. apply reachable_run; [| exact H].
  apply (reach_init _ 100 0); [lia | reflexivity].
Qed.




Lemma reachable_clock_ahead (P : op -> Prop) (w : world) :
  (forall n : Z, P (AdvanceTime n) -> (0 <= n)%Z) ->
  reachable_by P w -> clock_ahead w.
Proof.
  intros HP.
  apply (preserved_reachable P clock_ahead); unfold clock_ahead.
  - intros w0 v H. exact H.
  - intros w0 _ _ _. inside. lia.
  - intros a w1 _ H _. exact H.
  - intros a w1 _ H. unfold deposit_world.
    destruct (Qeq_bool (remain_vest_token (self w1)) 0); inside;
      [lia | exact H].
  - intros n w0 Hn H. apply HP in Hn. inside. lia.
  - intros z c _. inside. lia.
Qed.

(** X6.  In every such state [last_update_time <= BLOCK_TIMESTAMP]: the
    constructor, the reconciliation and the epoch reset set
    [last_update_time] to the clock, and the clock only advances. *)
Theorem last_update_not_ahead (w : world) :
  reachable w -> (last_update_time (self w) <= BLOCK_TIMESTAMP w)%Z.
Proof.
  apply (reachable_clock_ahead precondition). intros n Hn. exact Hn.
Qed.

Lemma last_update_not_ahead_witness :
  reachable (run driver (constructed 100 0))
  /\ (last_update_time (self (run driver (constructed 100 0)))
      <= BLOCK_TIMESTAMP (run driver (constructed 100 0)))%Z.
Proof.
  assert (H : reachable (run driver (constructed 100 0)))
    by (apply driver_reachable, driver_precondition).
  split; [exact H | exact (last_update_not_ahead _ H)].
Defined.





(** ** The query *)







(** ** Reconciliation *)

(** X2.  Reconciling twice at the same clock is reconciling once: the
    second call of [_update_state] finds [last_update_time] equal to the
    clock (or the same zero divisor) and gives the result and the world
    of the first. *)
Theorem reconcile_idempotent (w : world) :
  _update_state (snd (_update_state w)) = _update_state w.
Proof.
  destruct (update_state_cases w) as [E | [(Ht & Hne & E) | (Ht & Hz & E)]];
    rewrite E; cbn [snd].
  - exact E.
  - apply update_state_idle. cbn. lia.
  - exact E.
Qed.




(** ** The speed between two mutations *)






Lemma reachable_by_weaken (P R : op -> Prop) (w : world) :
  (forall o, P o -> R o) -> reachable_by P w -> reachable_by R w.
Proof.
  intros HPR. induction 1 as [z c w Hz E | o w _ IH Hp].
  - apply (reach_init R z c w Hz E).
  - apply reach_step; auto.
Qed.





(** ** When the calls return *)





(** ** Within an epoch *)





(** ** Boost tokens *)

Lemma boost_step (o : op) (w : world) :
  is_ok (fst (run_op o w)) = true ->
  (total_boost_token (self (after o w))
   + claimable_boost_token (self (after o w)))%Z
  = (total_boost_token (self w) + claimable_boost_token (self w)
     + boosts [o])%Z.
Proof.
  assert (Hupd : total_boost_token (self (snd (_update_state w)))
                 = total_boost_token (self w)
                 /\ claimable_boost_token (self (snd (_update_state w)))
                    = claimable_boost_token (self w)).
  { destruct (update_state_cases w) as [E | [(_ & _ & E) | (_ & _ & E)]];
      rewrite E; split; reflexivity. }
  assert (Hsp : forall w0,
             total_boost_token (self (snd (_update_vesting_speed w0)))
             = total_boost_token (self w0)
             /\ claimable_boost_token (self (snd (_update_vesting_speed w0)))
                = claimable_boost_token (self w0)).
  { intros w0.
    destruct (update_vesting_speed_frame w0) as [E | (_ & _ & E)];
      rewrite E; split; reflexivity. }
  destruct o as [a | a | n |]; unfold after, run_op; cbn [boosts].
  - rewrite boost_eq.
    destruct (negb _); [discriminate |]. destruct (negb _); [discriminate |].
    destruct (_update_state w) as [[[] | e] w1]; cbn [snd] in *;
      [| discriminate].
    intros _. destruct (Hsp (boosted_world a w1)) as [E1 E2].
    rewrite E1, E2. inside. lia.
  - rewrite add_vesting_eq.
    destruct (_update_state w) as [[[] | e] w1]; cbn [snd] in *;
      [| discriminate].
    intros _. destruct (Hsp (deposit_world a w1)) as [E1 E2].
    rewrite E1, E2. unfold deposit_world.
    destruct (Qeq_bool (remain_vest_token (self w1)) 0); inside; lia.
  - intros _. rewrite adjust_time_eq. cbn [snd self]. lia.
  - intros _. unfold bind. pose proof (get_current_state_pure w) as E.
    destruct (get_current_state w) as [[x | e] w']; cbn [snd] in E; subst w';
      cbn [snd ret self]; lia.
Qed.

(** X12.  After a constructor call and a sequence of operations that all
    returned, [total_boost_token + claimable_boost_token] is the sum of
    the amounts of the [boost] calls: the epoch reset moves the boost
    total to the withdrawable boost and nothing else touches either. *)
Theorem boost_tokens_conserved
  (initial_vesting clock : Z) (w : world) (ops : list op) :
  __init__ initial_vesting clock = Ok w ->
  all_return ops w = true ->
  (total_boost_token (self (run ops w))
   + claimable_boost_token (self (run ops w)))%Z
  = boosts ops.
Proof.
  intros Hinit Hall.
  assert (H0 : (total_boost_token (self w) + claimable_boost_token (self w))%Z
               = 0%Z).
  { destruct (Z.eq_dec initial_vesting 0) as [-> | Hz];
      [discriminate |].
    rewrite init_ok in Hinit by exact Hz. injection Hinit as <-. reflexivity. }
  enough (G : (total_boost_token (self (run ops w))
               + claimable_boost_token (self (run ops w)))%Z
              = (total_boost_token (self w) + claimable_boost_token (self w)
                 + boosts ops)%Z) by lia.
  clear H0 Hinit. revert w Hall.
  induction ops as [| o rest IH]; intros w Hall.
  - cbn [run boosts]. lia.
  - cbn [all_return] in Hall. apply andb_true_iff in Hall as [Ho Hrest].
    cbn [run]. rewrite (IH _ Hrest), (boost_step o w Ho).
    destruct o; cbn [boosts]; lia.
Qed.

Lemma boost_tokens_conserved_witness :
  __init__ 100 0 = Ok (constructed 100 0)
  /\ all_return driver (constructed 100 0) = true
  /\ (total_boost_token (self (run driver (constructed 100 0)))
      + claimable_boost_token (self (run driver (constructed 100 0))))%Z
     = 200%Z.
Proof.
  assert (H1 : __init__ 100 0 = Ok (constructed 100 0)) by reflexivity.
  assert (H2 : all_return driver (constructed 100 0) = true)
    by (vm_compute; reflexivity).
  split; [exact H1 |]. split; [exact H2 |].
  exact (boost_tokens_conserved 100 0 _ driver H1 H2).
Defined.

(** ** The epoch reset *)



(** ** The ledger that no call can use again *)



(** ** When an epoch is exhausted *)



(** ** What can be claimed *)


